(** * Data validation component of the customer categorizer

    A shallow embedding of [src/components/data_validation.py] (class
    [DataValidation]) and the properties of its validation decision:
    schema check, drift verdict extraction, combination and the emitted
    artifact.

    The component talks to three collaborators that are not part of the
    module: pandas ([pd.read_csv]), Evidently ([Report.run],
    [dump_dict]) and the YAML writer of [src.utils.main_utils].  They are
    taken as a record of functions over an abstract world; everything the
    module itself does is written out below. *)

From stdpp Require Import gmap strings list fin_maps.

Open Scope string_scope.
Open Scope list_scope.

(** ** Python values *)

(** A Python float, as data only: the module never computes with floats,
    it only tests their truth value. *)
Inductive pyfloat :=
  | FNan
  | FInf (negative : bool)
  | FFin (mantissa exponent : Z).

Set Warnings "-register-all".

(** The values a report dictionary, a schema configuration or a table cell
    is built from. *)
Inductive pyvalue :=
  | VNone
  | VBool (b : bool)
  | VInt (n : Z)
  | VFloat (f : pyfloat)
  | VStr (s : string)
  | VList (l : list pyvalue)
  | VDict (d : gmap string pyvalue).

(** ** Exceptions and results *)

(** Exceptions caught by [except Exception]: one raised by a library or a
    built-in, identified by its class name, or the project's
    [CustomerException(e, sys)] wrapping the exception it was built from. *)
Inductive Exception :=
  | Raised (cls msg : string)
  | CustomerException (cause : Exception).

Definition exception_class (e : Exception) : string :=
  match e with
  | Raised cls _ => cls
  | CustomerException _ => "CustomerException"
  end.

Inductive result (A : Type) :=
  | Ok (a : A)
  | Err (e : Exception).
Arguments Ok {A} a.
Arguments Err {A} e.

Definition result_bind {A B} (r : result A) (k : A → result B) : result B :=
  match r with
  | Ok a => k a
  | Err e => Err e
  end.

#[global] Instance result_ret : MRet result := λ A a, Ok a.
#[global] Instance result_mbind : MBind result := λ A B k r, result_bind r k.

Definition is_Ok {A} (r : result A) : bool :=
  match r with Ok _ => true | Err _ => false end.

(** ** Built-in operations of Python used by the module *)

Definition type_name (v : pyvalue) : string :=
  match v with
  | VNone => "NoneType"
  | VBool _ => "bool"
  | VInt _ => "int"
  | VFloat _ => "float"
  | VStr _ => "str"
  | VList _ => "list"
  | VDict _ => "dict"
  end.

(** [len(v)] *)
Definition py_len (v : pyvalue) : result nat :=
  match v with
  | VStr s => Ok (String.length s)
  | VList l => Ok (length l)
  | VDict d => Ok (size d)
  | _ => Err (Raised "TypeError" ("object of type " +:+ type_name v +:+ " has no len()"))
  end.

(** [v[k]] for a string key [k] *)
Definition py_getitem (v : pyvalue) (k : string) : result pyvalue :=
  match v with
  | VDict d =>
      match d !! k with
      | Some x => Ok x
      | None => Err (Raised "KeyError" k)
      end
  | VStr _ | VList _ =>
      Err (Raised "TypeError" (type_name v +:+ " indices must be integers"))
  | _ => Err (Raised "TypeError" (type_name v +:+ " object is not subscriptable"))
  end.

(** [v.get(k, dflt)] *)
Definition py_get (v : pyvalue) (k : string) (dflt : pyvalue) : result pyvalue :=
  match v with
  | VDict d => Ok (default dflt (d !! k))
  | _ => Err (Raised "AttributeError" (type_name v +:+ " object has no attribute get"))
  end.

(** The items a [for] loop over [v] visits: the elements of a list, the
    keys of a dictionary, the characters of a string. *)
Definition py_iter (v : pyvalue) : result (list pyvalue) :=
  match v with
  | VList l => Ok l
  | VDict d => Ok (VStr <$> (map_to_list d).*1)
  | VStr s => Ok ((λ c, VStr (String c EmptyString)) <$> String.list_ascii_of_string s)
  | _ => Err (Raised "TypeError" (type_name v +:+ " object is not iterable"))
  end.

(** [x == VStr k] for a string [k]: only an equal string is equal to it. *)
Definition is_str (k : string) (x : pyvalue) : bool :=
  match x with
  | VStr s => bool_decide (s = k)
  | _ => false
  end.

(** [k in s] on strings: [k] occurs in [s] as a substring. *)
Fixpoint substringb (k s : string) : bool :=
  String.prefix k s ||
  match s with
  | EmptyString => false
  | String _ s' => substringb k s'
  end.

(** [k in v] for a string [k] *)
Definition py_contains (k : string) (v : pyvalue) : result bool :=
  match v with
  | VDict d => Ok (bool_decide (is_Some (d !! k)))
  | VList l => Ok (existsb (is_str k) l)
  | VStr s => Ok (substringb k s)
  | _ => Err (Raised "TypeError" ("argument of type " +:+ type_name v +:+ " is not iterable"))
  end.

(** [bool(v)] *)
Definition py_bool (v : pyvalue) : bool :=
  match v with
  | VNone => false
  | VBool b => b
  | VInt n => negb (n =? 0)%Z
  | VFloat (FFin m _) => negb (m =? 0)%Z
  | VFloat _ => true
  | VStr s => negb (String.length s =? 0)%nat
  | VList l => negb (length l =? 0)%nat
  | VDict d => negb (size d =? 0)%nat
  end.

(** [v is not None] *)
Definition is_not_None (v : pyvalue) : bool :=
  match v with
  | VNone => false
  | _ => true
  end.

(** ** Tables and entities *)

(** A [DataFrame]: its named columns in order, each with its cells. *)
Definition DataFrame := list (string * list pyvalue).

(** [dataframe.columns] *)
Definition columns (dataframe : DataFrame) : list string := dataframe.*1.

(** What [report.run] returns (Evidently's snapshot object), seen through
    the two things the module does with it: printing it and calling
    [dump_dict()]. *)
Record Evaluation := {
  ev_repr : string;
  dump_dict : result pyvalue
}.

Record DataIngestionArtifact := {
  trained_file_path : string;
  test_file_path : string
}.

Record DataValidationConfig := {
  cfg_invalid_train_file_path : string;
  cfg_invalid_test_file_path : string;
  cfg_drift_report_file_path : string
}.

Record DataValidationArtifact := {
  validation_status : bool;
  valid_train_file_path : string;
  valid_test_file_path : string;
  invalid_train_file_path : string;
  invalid_test_file_path : string;
  drift_report_file_path : string
}.

(** The object built by [DataValidation.__init__]; [_schema_config] is what
    [read_schema_config_file()] returned at construction. *)
Record DataValidation := {
  data_ingestion_artifact : DataIngestionArtifact;
  data_validation_config : DataValidationConfig;
  _schema_config : pyvalue
}.

(** ** Observable steps *)

(** The records handed to [logging.info]; the formatted ones keep the
    values they interpolate. *)
Inductive LogMsg :=
  | Msg (text : string)
  | MsgColumnPresent (status : bool)
  | MsgSchemaStatus (train test : bool)
  | MsgDriftCount (n_drifted n_features : pyvalue).

(** One entry per call that leaves the module, in call order. *)
Inductive Event :=
  | EvLog (m : LogMsg)
  | EvReadCsv (file_path : string)
  | EvReportRun (current_df reference_df : DataFrame)
  | EvPrint (evaluation : Evaluation)
  | EvDumpDict (evaluation : Evaluation)
  | EvWriteYaml (file_path : string) (content : pyvalue).

(** ** Collaborators *)

(** [W] is the world outside the process (the file system).  Reading a
    table does not change it; writing the report may, also when it fails.
    [report_run current reference] is
    [Report([DataDriftPreset()]).run(current, reference)].  A record
    stands for the collaborators as they answer during one run: what the
    engine answers in another run is another record, and nothing below
    relates the two. *)
Record Collaborators (W : Type) := {
  pd_read_csv : string → W → result DataFrame;
  report_run : DataFrame → DataFrame → result Evaluation;
  write_yaml_file : string → pyvalue → W → result unit * W
}.
Arguments pd_read_csv {W} _ _ _.
Arguments report_run {W} _ _ _.
Arguments write_yaml_file {W} _ _ _ _.

(** ** The monad of the module: state, call trace and exceptions *)

Record State (W : Type) := {
  world : W;
  trace : list Event
}.
Arguments world {W} _.
Arguments trace {W} _.

Definition M (W A : Type) : Type := State W → result A * State W.

Section Monad.
Context {W : Type}.

Definition ret {A} (a : A) : M W A := λ s, (Ok a, s).

Definition bind {A B} (m : M W A) (k : A → M W B) : M W B :=
  λ s, match m s with
       | (Ok a, s') => k a s'
       | (Err e, s') => (Err e, s')
       end.

Definition raise {A} (e : Exception) : M W A := λ s, (Err e, s).

(** [try: body except Exception as e: handler e] *)
Definition try_except {A} (body : M W A) (handler : Exception → M W A) : M W A :=
  λ s, match body s with
       | (Ok a, s') => (Ok a, s')
       | (Err e, s') => handler e s'
       end.

(** A pure computation that may raise. *)
Definition lift {A} (r : result A) : M W A := λ s, (r, s).

Definition emit (ev : Event) : M W unit :=
  λ s, (Ok (), {| world := world s; trace := trace s ++ [ev] |}).

(** A call that reads the world, and one that may change it. *)
Definition read_world {A} (f : W → result A) : M W A :=
  λ s, (f (world s), s).

Definition update_world {A} (f : W → result A * W) : M W A :=
  λ s, let '(r, w) := f (world s) in
       (r, {| world := w; trace := trace s |}).

(** [logging.info(m)] *)
Definition logging_info (m : LogMsg) : M W unit := emit (EvLog m).
End Monad.

#[global] Instance M_ret {W} : MRet (M W) := λ A, @ret W A.
#[global] Instance M_bind {W} : MBind (M W) := λ A B k m, bind m k.

(** ** The class [DataValidation] *)

(** The body of the [for m in ...] loop of [detect_dataset_drift] and its
    [break]: the triple is [(drift_status, n_features, n_drifted)]. *)
Fixpoint drift_summary_loop (ms : list pyvalue)
    (acc : bool * pyvalue * pyvalue) : result (bool * pyvalue * pyvalue) :=
  match ms with
  | [] => Ok acc
  | m :: ms' =>
      res ← py_get m "result" (VDict ∅);
      has_drift ← py_contains "dataset_drift" res;
      has_any ← (if has_drift : bool then Ok true
                 else py_contains "number_of_drifted_columns" res);
      if has_any : bool then
        drift_value ← py_get res "dataset_drift" (VBool false);
        n_features ← py_get res "number_of_columns" VNone;
        n_drifted ← py_get res "number_of_drifted_columns" VNone;
        Ok (py_bool drift_value, n_features, n_drifted)
      else drift_summary_loop ms' acc
  end.

(** Lines 93 to 107: the summary read off the report dictionary. *)
Definition drift_summary (report_dict : pyvalue) : result (bool * pyvalue * pyvalue) :=
  metrics ← py_get report_dict "metrics" (VList []);
  iterable ← py_get report_dict "metrics" (VList []);
  ms ← py_iter iterable;
  drift_summary_loop ms (false, VNone, VNone).

Section DataValidation.
Context {W : Type}.
Variable env : Collaborators W.

(** [pd.read_csv(file_path)] *)
Definition read_csv (file_path : string) : M W DataFrame :=
  emit (EvReadCsv file_path);;
  read_world (pd_read_csv env file_path).

(** [report.run(current_df, reference_df)] on a fresh
    [Report([DataDriftPreset()])] *)
Definition run_report (current_df reference_df : DataFrame) : M W Evaluation :=
  emit (EvReportRun current_df reference_df);;
  lift (report_run env current_df reference_df).

(** [write_yaml_file(file_path, content)] *)
Definition write_yaml (file_path : string) (content : pyvalue) : M W unit :=
  emit (EvWriteYaml file_path content);;
  update_world (write_yaml_file env file_path content).

Definition validate_schema_columns (self : DataValidation)
    (dataframe : DataFrame) : M W bool :=
  try_except
    (expected ← lift (py_getitem (_schema_config self) "columns");
     n ← lift (py_len expected);
     let status := bool_decide (length (columns dataframe) = n) in
     logging_info (MsgColumnPresent status);;
     mret status)
    (λ e, raise (CustomerException e)).

Definition validate_dataset_schema_columns (self : DataValidation)
    (train_set test_set : DataFrame) : M W (bool * bool) :=
  logging_info (Msg "Entered validate_dataset_schema_columns method of Data_Validation class");;
  try_except
    (logging_info (Msg "Validating dataset schema columns");;
     train_schema_status ← validate_schema_columns self train_set;
     logging_info (Msg "Validated dataset schema columns on the train set");;
     test_schema_status ← validate_schema_columns self test_set;
     logging_info (Msg "Validated dataset schema columns on the test set");;
     logging_info (Msg "Validated dataset schema columns");;
     mret (train_schema_status, test_schema_status))
    (λ e, raise (CustomerException e)).

Definition detect_dataset_drift (self : DataValidation)
    (reference_df current_df : DataFrame) : M W bool :=
  try_except
    (evaluation ← run_report current_df reference_df;
     emit (EvPrint evaluation);;
     report_dict ← (emit (EvDumpDict evaluation);; lift (dump_dict evaluation));
     write_yaml
       (cfg_drift_report_file_path (data_validation_config self)) report_dict;;
     '(drift_status, n_features, n_drifted) ← lift (drift_summary report_dict);
     (if is_not_None n_features && is_not_None n_drifted
      then logging_info (MsgDriftCount n_drifted n_features)
      else mret ());;
     mret drift_status)
    (λ e, raise (CustomerException e)).

Definition read_data (file_path : string) : M W DataFrame :=
  try_except (read_csv file_path) (λ e, raise (CustomerException e)).

(** [x is True] and [x is False] on a value that is a [bool] *)
Definition is_True (x : bool) : bool := x.
Definition is_False (x : bool) : bool := negb x.

Definition initiate_data_validation (self : DataValidation)
    : M W DataValidationArtifact :=
  logging_info (Msg "Entered initiate_data_validation method of Data_Validation class");;
  try_except
    (logging_info (Msg "Initiated data validation for the dataset");;
     train_df ← read_data (trained_file_path (data_ingestion_artifact self));
     test_df ← read_data (test_file_path (data_ingestion_artifact self));
     drift ← detect_dataset_drift self train_df test_df;
     '(schema_train_col_status, schema_test_col_status) ←
        validate_dataset_schema_columns self train_df test_df;
     logging_info (MsgSchemaStatus schema_train_col_status schema_test_col_status);;
     let validation_status :=
       is_True schema_train_col_status
       && is_True schema_test_col_status
       && is_False drift in
     mret {|
       validation_status := validation_status;
       valid_train_file_path := trained_file_path (data_ingestion_artifact self);
       valid_test_file_path := test_file_path (data_ingestion_artifact self);
       invalid_train_file_path :=
         cfg_invalid_train_file_path (data_validation_config self);
       invalid_test_file_path :=
         cfg_invalid_test_file_path (data_validation_config self);
       drift_report_file_path :=
         cfg_drift_report_file_path (data_validation_config self)
     |})
    (λ e, raise (CustomerException e)).
End DataValidation.

(** ** An in-memory world, for running the module on concrete inputs *)

Module MemFS.
Inductive File :=
  | FCsv (table : DataFrame)
  | FYaml (content : pyvalue).

(** Reading a missing file or a file that is not a table fails. *)
Definition read (file_path : string) (w : gmap string File) : result DataFrame :=
  match w !! file_path with
  | Some (FCsv table) => Ok table
  | Some (FYaml _) => Err (Raised "ParserError" file_path)
  | None => Err (Raised "FileNotFoundError" file_path)
  end.

(** Writing replaces the file; the empty path cannot be opened. *)
Definition write (file_path : string) (content : pyvalue)
    (w : gmap string File) : result unit * gmap string File :=
  if bool_decide (file_path = "")
  then (Err (Raised "FileNotFoundError" file_path), w)
  else (Ok (), <[file_path := FYaml content]> w).

(** The world with an engine that answers every comparison with [r]. *)
Definition env (r : result Evaluation) : Collaborators (gmap string File) :=
  {| pd_read_csv := read;
     report_run := λ _ _, r;
     write_yaml_file := write |}.

(** A report whose single metric carries the dataset-level summary. *)
Definition summary_report (drift : bool) (n_features n_drifted : Z) : pyvalue :=
  VDict {[ "metrics" :=
    VList [ VDict {[ "result" :=
      VDict (<[ "dataset_drift" := VBool drift ]>
             (<[ "number_of_columns" := VInt n_features ]>
              {[ "number_of_drifted_columns" := VInt n_drifted ]})) ]} ] ]}.

Definition evaluation_of (report_dict : pyvalue) : Evaluation :=
  {| ev_repr := "Snapshot"; dump_dict := Ok report_dict |}.

Definition age (values : list Z) : DataFrame := [("age", VInt <$> values)].

Definition self0 (schema : pyvalue) : DataValidation :=
  {| data_ingestion_artifact :=
       {| trained_file_path := "train.csv"; test_file_path := "test.csv" |};
     data_validation_config :=
       {| cfg_invalid_train_file_path := "invalid/train.csv";
          cfg_invalid_test_file_path := "invalid/test.csv";
          cfg_drift_report_file_path := "report.yaml" |};
     _schema_config := schema |}.

Definition schema_of (names : list string) : pyvalue :=
  VDict {[ "columns" := VList (VStr <$> names) ]}.

Definition start (train test : DataFrame) : State (gmap string File) :=
  {| world := <[ "train.csv" := FCsv train ]> {[ "test.csv" := FCsv test ]};
     trace := [] |}.

(** Ages 20 to 29, and the same table under another column name. *)
Definition ages : DataFrame := age [20; 21; 22; 23; 24; 25; 26; 27; 28; 29]%Z.
Definition incomes : DataFrame :=
  [("income", VInt <$> [20; 21; 22; 23; 24; 25; 26; 27; 28; 29]%Z)].

(** A table of one column when [one] holds, of two otherwise. *)
Definition table (one : bool) : DataFrame :=
  if one then ages else ages ++ incomes.

(** A report with an empty list of metrics. *)
Definition empty_report : pyvalue := VDict {[ "metrics" := VList [] ]}.

(** A report with two metric entries, neither carrying the summary: one
    with a result of its own, one with no result. *)
Definition column_report : pyvalue :=
  VDict {[ "metrics" :=
    VList [ VDict (<[ "metric" := VStr "ValueDrift" ]>
                   {[ "result" := VDict {[ "drift_score" := VFloat (FFin 1 (-3)) ]} ]});
            VDict {[ "metric" := VStr "RowCount" ]} ] ]}.

(** The engine answers with [report_dict]. *)
Definition reporting (report_dict : pyvalue) : Collaborators (gmap string File) :=
  env (Ok (evaluation_of report_dict)).

(** The engine fails. *)
Definition failing : Collaborators (gmap string File) :=
  env (Err (Raised "ValueError" "no columns to compare")).

(** A run for given outcomes of the two schema checks and of the drift
    detection: the schema expects one column. *)
Definition combination_run (schema_train schema_test dataset_drift : bool)
    : result DataValidationArtifact * State (gmap string File) :=
  initiate_data_validation (reporting (summary_report dataset_drift 1 0))
    (self0 (schema_of ["age"]))
    (start (table schema_train) (table schema_test)).

(** A world in which the test table is missing. *)
Definition start_without_test (train : DataFrame) : State (gmap string File) :=
  {| world := {[ "train.csv" := FCsv train ]}; trace := [] |}.

(** A world with no table at all. *)
Definition start_empty : State (gmap string File) :=
  {| world := ∅; trace := [] |}.

(** The result of a summary metric with the flag and both counts. *)
Definition summary_result (drift : bool) (n_features n_drifted : Z)
    : gmap string pyvalue :=
  <[ "dataset_drift" := VBool drift ]>
  (<[ "number_of_columns" := VInt n_features ]>
   {[ "number_of_drifted_columns" := VInt n_drifted ]}).

(** The result of a metric that has the drifted count and nothing else. *)
Definition count_only_result (n_drifted : Z) : gmap string pyvalue :=
  {[ "number_of_drifted_columns" := VInt n_drifted ]}.

(** A metric entry with the result [rd]. *)
Definition metric_entry (rd : gmap string pyvalue) : gmap string pyvalue :=
  {[ "result" := VDict rd ]}.

(** A metric entry without the summary, as in [column_report]. *)
Definition column_metric : pyvalue :=
  VDict (<[ "metric" := VStr "ValueDrift" ]>
         {[ "result" := VDict {[ "drift_score" := VFloat (FFin 1 (-3)) ]} ]}).

(** A report with the metric entries [ms]. *)
Definition report_of (ms : list pyvalue) : pyvalue :=
  VDict {[ "metrics" := VList ms ]}.

Definition ingestion0 : DataIngestionArtifact :=
  {| trained_file_path := "train.csv"; test_file_path := "test.csv" |}.

(** An object whose drift report path cannot be opened. *)
Definition self_unwritable (schema : pyvalue) : DataValidation :=
  {| data_ingestion_artifact := ingestion0;
     data_validation_config :=
       {| cfg_invalid_train_file_path := "invalid/train.csv";
          cfg_invalid_test_file_path := "invalid/test.csv";
          cfg_drift_report_file_path := "" |};
     _schema_config := schema |}.
End MemFS.

(** ** Vocabulary of the properties *)

(** The state [s] after the calls [evs]. *)
Definition add_events {W} (s : State W) (evs : list Event) : State W :=
  {| world := world s; trace := trace s ++ evs |}.

(** [len(self._schema_config["columns"])]: the expected column count. *)
Definition expected_column_count (self : DataValidation) : result nat :=
  expected ← py_getitem (_schema_config self) "columns";
  py_len expected.



(** The state [s] with the world replaced by [w]. *)
Definition set_world {W} (s : State W) (w : W) : State W :=
  {| world := w; trace := trace s |}.

(** The line logged at the end of [detect_dataset_drift], when both counts
    were found. *)
Definition drift_log (n_features n_drifted : pyvalue) : list Event :=
  if is_not_None n_features && is_not_None n_drifted
  then [EvLog (MsgDriftCount n_drifted n_features)]
  else [].

(** The lines logged by [validate_dataset_schema_columns] around and in the
    two checks. *)
Definition schema_log (train_status test_status : bool) : list Event :=
  [ EvLog (Msg "Entered validate_dataset_schema_columns method of Data_Validation class");
    EvLog (Msg "Validating dataset schema columns");
    EvLog (MsgColumnPresent train_status);
    EvLog (Msg "Validated dataset schema columns on the train set");
    EvLog (MsgColumnPresent test_status);
    EvLog (Msg "Validated dataset schema columns on the test set");
    EvLog (Msg "Validated dataset schema columns") ].

(** The artifact built at the end of [initiate_data_validation]. *)
Definition artifact_of (self : DataValidation) (status : bool)
    : DataValidationArtifact :=
  {| validation_status := status;
     valid_train_file_path := trained_file_path (data_ingestion_artifact self);
     valid_test_file_path := test_file_path (data_ingestion_artifact self);
     invalid_train_file_path :=
       cfg_invalid_train_file_path (data_validation_config self);
     invalid_test_file_path :=
       cfg_invalid_test_file_path (data_validation_config self);
     drift_report_file_path :=
       cfg_drift_report_file_path (data_validation_config self) |}.

(** The two lines logged when [initiate_data_validation] starts. *)
Definition start_log : list Event :=
  [ EvLog (Msg "Entered initiate_data_validation method of Data_Validation class");
    EvLog (Msg "Initiated data validation for the dataset") ].

(** The report dictionaries handed to the writer during [evs]. *)
Definition reports_written (evs : list Event) : list (string * pyvalue) :=
  omap (λ ev, match ev with
              | EvWriteYaml file_path content => Some (file_path, content)
              | _ => None
              end) evs.

(** The verdicts logged by [validate_schema_columns] during [evs]. *)
Definition verdicts_logged (evs : list Event) : list bool :=
  omap (λ ev, match ev with
              | EvLog (MsgColumnPresent status) => Some status
              | _ => None
              end) evs.


(** The result of a metric entry names neither summary key. *)
Definition metric_without_summary (m : pyvalue) : bool :=
  match m with
  | VDict md =>
      let res := default (VDict ∅) (md !! "result") in
      match py_contains "dataset_drift" res,
            py_contains "number_of_drifted_columns" res with
      | Ok false, Ok false => true
      | _, _ => false
      end
  | _ => false
  end.

(** The report dictionary has no metric entry with a [dataset_drift] or
    [number_of_drifted_columns] key in its result. *)
Definition report_without_summary (report_dict : pyvalue) : bool :=
  match report_dict with
  | VDict d =>
      match py_iter (default (VList []) (d !! "metrics")) with
      | Ok ms => forallb metric_without_summary ms
      | Err _ => false
      end
  | _ => false
  end.

(** The calls made between the states [s] and [s']. *)
Definition events_since {W} (s s' : State W) : list Event :=
  drop (length (trace s)) (trace s').

(** The phases of the orchestrator. *)
Inductive Phase :=
  | LOAD_DATASETS
  | CHECK_SCHEMAS
  | DETECT_DRIFT
  | COMBINE
  | PERSIST_REPORT
  | EMIT_ARTIFACT.

(** The phase a call belongs to.  Reading a table is the load; the three
    calls on the engine and the count line logged by
    [detect_dataset_drift] are the drift detection; the call of the writer
    is the persistence; the verdict line logged by
    [validate_schema_columns] is a schema check; the status line the
    orchestrator logs with both verdicts stands right before the
    combination, with no call in between.  The other log lines mark no
    phase, and returning the artifact is no call. *)
Definition phase_of (ev : Event) : option Phase :=
  match ev with
  | EvReadCsv _ => Some LOAD_DATASETS
  | EvReportRun _ _ | EvPrint _ | EvDumpDict _ => Some DETECT_DRIFT
  | EvLog (MsgDriftCount _ _) => Some DETECT_DRIFT
  | EvWriteYaml _ _ => Some PERSIST_REPORT
  | EvLog (MsgColumnPresent _) => Some CHECK_SCHEMAS
  | EvLog (MsgSchemaStatus _ _) => Some COMBINE
  | EvLog (Msg _) => None
  end.

Definition phases (evs : list Event) : list Phase := omap phase_of evs.

(** The order of the phases as the specification lists them. *)
Definition spec_rank (p : Phase) : nat :=
  match p with
  | LOAD_DATASETS => 1
  | CHECK_SCHEMAS => 2
  | DETECT_DRIFT => 3
  | COMBINE => 4
  | PERSIST_REPORT => 5
  | EMIT_ARTIFACT => 6
  end.

(** The order of the phases in [initiate_data_validation]: the report is
    persisted within the drift detection, and the schema checks follow. *)
Definition code_rank (p : Phase) : nat :=
  match p with
  | LOAD_DATASETS => 1
  | DETECT_DRIFT | PERSIST_REPORT => 2
  | CHECK_SCHEMAS => 3
  | COMBINE => 4
  | EMIT_ARTIFACT => 5
  end.

Fixpoint nondecreasing (l : list nat) : bool :=
  match l with
  | a :: (b :: _) as l' => (a <=? b)%nat && nondecreasing l'
  | _ => true
  end.

(** The calls [evs] go through the phases in the order [rank] gives. *)
Definition in_order (rank : Phase → nat) (evs : list Event) : bool :=
  nondecreasing (rank <$> phases evs).

(** Brings the trace of a state built by [add_events] and [set_world] to
    the form [trace s ++ evs]. *)
Ltac norm_trace :=
  unfold events_since, set_world, add_events;
  cbn [trace world fst snd];
  rewrite <- ?app_assoc, ?drop_app_length.

(** ** How the methods run *)

Section Runs.
Context {W : Type}.
Variable env : Collaborators W.
Implicit Types (s : State W) (self : DataValidation).

Lemma add_events_app s evs1 evs2 :
  add_events (add_events s evs1) evs2 = add_events s (evs1 ++ evs2).
Proof. unfold add_events. simpl. by rewrite app_assoc. Qed.

Lemma validate_schema_columns_run self dataframe s :
  validate_schema_columns self dataframe s =
  match expected_column_count self with
  | Ok n =>
      let status := bool_decide (length (columns dataframe) = n) in
      (Ok status, add_events s [EvLog (MsgColumnPresent status)])
  | Err e => (Err (CustomerException e), s)
  end.
Proof.
  unfold validate_schema_columns, expected_column_count, try_except.
  unfold mbind, M_bind, bind, lift, result_mbind, result_bind.
  destruct (py_getitem _ _) as [expected|e]; [|done].
  destruct (py_len expected) as [n|e]; done.
Qed.

Lemma validate_dataset_schema_columns_run self train_set test_set s :
  validate_dataset_schema_columns self train_set test_set s =
  match expected_column_count self with
  | Ok n =>
      let train_status := bool_decide (length (columns train_set) = n) in
      let test_status := bool_decide (length (columns test_set) = n) in
      (Ok (train_status, test_status),
       add_events s (schema_log train_status test_status))
  | Err e =>
      (Err (CustomerException (CustomerException e)),
       add_events s (take 2 (schema_log false false)))
  end.
Proof.
  unfold validate_dataset_schema_columns, try_except.
  unfold mbind, M_bind, bind, logging_info, emit. simpl.
  rewrite validate_schema_columns_run.
  destruct (expected_column_count self) as [n|e] eqn:Hn; simpl.
  - rewrite validate_schema_columns_run, Hn. simpl.
    unfold mret, M_ret, ret, add_events. simpl. by rewrite <- !app_assoc.
  - unfold raise, add_events. simpl. by rewrite <- !app_assoc.
Qed.

Lemma detect_dataset_drift_run self reference_df current_df s :
  detect_dataset_drift env self reference_df current_df s =
  match report_run env current_df reference_df with
  | Err e =>
      (Err (CustomerException e),
       add_events s [EvReportRun current_df reference_df])
  | Ok evaluation =>
      let called := [EvReportRun current_df reference_df;
                     EvPrint evaluation; EvDumpDict evaluation] in
      match dump_dict evaluation with
      | Err e => (Err (CustomerException e), add_events s called)
      | Ok report_dict =>
          let file_path := cfg_drift_report_file_path (data_validation_config self) in
          let written :=
            set_world
              (add_events s (called ++ [EvWriteYaml file_path report_dict]))
              (write_yaml_file env file_path report_dict (world s)).2 in
          match (write_yaml_file env file_path report_dict (world s)).1 with
          | Err e => (Err (CustomerException e), written)
          | Ok _ =>
              match drift_summary report_dict with
              | Err e => (Err (CustomerException e), written)
              | Ok (drift_status, n_features, n_drifted) =>
                  (Ok drift_status,
                   add_events written (drift_log n_features n_drifted))
              end
          end
      end
  end.
Proof.
  unfold detect_dataset_drift, try_except, run_report, write_yaml.
  unfold mbind, M_bind, bind, logging_info, emit, lift, update_world. simpl.
  destruct (report_run env current_df reference_df) as [evaluation|e]; [|done].
  simpl. destruct (dump_dict evaluation) as [report_dict|e]; simpl.
  2: { unfold add_events. simpl. by rewrite <- !app_assoc. }
  destruct (write_yaml_file env _ report_dict (world s)) as [[[]|e] w]; simpl.
  2: { unfold set_world, add_events. simpl. by rewrite <- !app_assoc. }
  destruct (drift_summary report_dict) as [[[drift_status n_features] n_drifted]|e];
    simpl.
  2: { unfold set_world, add_events. simpl. by rewrite <- !app_assoc. }
  unfold drift_log, set_world, add_events, logging_info, emit. simpl.
  destruct (is_not_None n_features && is_not_None n_drifted); simpl.
  - by rewrite <- !app_assoc.
  - by rewrite app_nil_r, <- !app_assoc.
Qed.

Lemma read_data_run file_path s :
  read_data env file_path s =
  (match pd_read_csv env file_path (world s) with
   | Ok table => Ok table
   | Err e => Err (CustomerException e)
   end, add_events s [EvReadCsv file_path]).
Proof.
  unfold read_data, try_except, read_csv, read_world.
  unfold mbind, M_bind, bind, emit. simpl.
  by destruct (pd_read_csv env file_path (world s)).
Qed.

Lemma initiate_data_validation_run self s :
  initiate_data_validation env self s =
  let train := trained_file_path (data_ingestion_artifact self) in
  let test := test_file_path (data_ingestion_artifact self) in
  match pd_read_csv env train (world s) with
  | Err e =>
      (Err (CustomerException (CustomerException e)),
       add_events s (start_log ++ [EvReadCsv train]))
  | Ok train_df =>
      let loaded := add_events s (start_log ++ [EvReadCsv train; EvReadCsv test]) in
      match pd_read_csv env test (world s) with
      | Err e => (Err (CustomerException (CustomerException e)), loaded)
      | Ok test_df =>
          match detect_dataset_drift env self train_df test_df loaded with
          | (Err e, s2) => (Err (CustomerException e), s2)
          | (Ok drift, s2) =>
              match validate_dataset_schema_columns self train_df test_df s2 with
              | (Err e, s3) => (Err (CustomerException e), s3)
              | (Ok (train_status, test_status), s3) =>
                  (Ok (artifact_of self (train_status && test_status && negb drift)),
                   add_events s3 [EvLog (MsgSchemaStatus train_status test_status)])
              end
          end
      end
  end.
Proof.
  unfold initiate_data_validation, try_except.
  unfold mbind, M_bind, bind, logging_info, emit. simpl.
  rewrite read_data_run. simpl.
  destruct (pd_read_csv env (trained_file_path _) (world s)) as [train_df|e]; simpl.
  2: { unfold raise, add_events. simpl. by rewrite <- !app_assoc. }
  rewrite read_data_run. simpl.
  replace (add_events _ [EvReadCsv (test_file_path _)])
    with (add_events s (start_log ++
            [EvReadCsv (trained_file_path (data_ingestion_artifact self));
             EvReadCsv (test_file_path (data_ingestion_artifact self))])).
  2: { unfold add_events. simpl. by rewrite <- !app_assoc. }
  destruct (pd_read_csv env (test_file_path _) (world s)) as [test_df|e]; simpl;
    [|done].
  destruct (detect_dataset_drift env self train_df test_df _) as [[drift|e] s2];
    simpl; [|done].
  destruct (validate_dataset_schema_columns self train_df test_df s2)
    as [[[train_status test_status]|e] s3]; simpl; done.
Qed.
End Runs.

(** ** Schema check *)

Section SchemaCheck.
Context {W : Type}.
Implicit Types (s : State W) (self : DataValidation).

(** C2. When the schema configuration yields an expected column count
    [n], [validate_schema_columns] on any table returns without raising,
    with only its verdict logged, and the verdict is [true] exactly when
    the table has [n] columns (so [false] for every other count, the
    empty table included unless [n] is 0). *)
Theorem validate_schema_columns_iff self (dataframe : DataFrame) (n : nat) s :
  expected_column_count self = Ok n →
  ∃ status : bool,
    validate_schema_columns self dataframe s =
      (Ok status, add_events s [EvLog (MsgColumnPresent status)]) ∧
    (status = true ↔ length (columns dataframe) = n).
Proof.
  intros Hn. rewrite validate_schema_columns_run, Hn. simpl.
  eexists. split; [done|]. apply bool_decide_eq_true.
Qed.
End SchemaCheck.

(** ** The orchestrator *)

Section Orchestrator.
Context {W : Type}.
Variable env : Collaborators W.
Implicit Types (s : State W) (self : DataValidation).

(** What a run that returns an artifact went through. *)
Lemma initiate_data_validation_Ok_inv self s artifact s' :
  initiate_data_validation env self s = (Ok artifact, s') →
  ∃ train_df test_df drift s2 n,
    let train_status := bool_decide (length (columns train_df) = n) in
    let test_status := bool_decide (length (columns test_df) = n) in
    pd_read_csv env (trained_file_path (data_ingestion_artifact self)) (world s)
      = Ok train_df ∧
    pd_read_csv env (test_file_path (data_ingestion_artifact self)) (world s)
      = Ok test_df ∧
    detect_dataset_drift env self train_df test_df
      (add_events s (start_log ++
         [EvReadCsv (trained_file_path (data_ingestion_artifact self));
          EvReadCsv (test_file_path (data_ingestion_artifact self))]))
      = (Ok drift, s2) ∧
    expected_column_count self = Ok n ∧
    artifact = artifact_of self (train_status && test_status && negb drift) ∧
    s' = add_events s2 (schema_log train_status test_status ++
                        [EvLog (MsgSchemaStatus train_status test_status)]).
Proof.
  rewrite initiate_data_validation_run. simpl.
  destruct (pd_read_csv env (trained_file_path _) _) as [train_df|e]; [|done].
  destruct (pd_read_csv env (test_file_path _) _) as [test_df|e]; [|done].
  destruct (detect_dataset_drift _ _ _ _ _) as [[drift|e] s2] eqn:Hdrift; [|done].
  rewrite validate_dataset_schema_columns_run.
  destruct (expected_column_count self) as [n|e] eqn:Hn; [|done].
  simpl. intros [= <- <-].
  exists train_df, test_df, drift, s2, n. simpl.
  by rewrite add_events_app.
Qed.

(** C1. In every run that emits an artifact, its [validation_status] is
    the conjunction of the schema verdict on the train table, the schema
    verdict on the test table and the negation of the drift flag returned
    by [detect_dataset_drift], whatever the three booleans are. *)
Theorem validation_status_combination self s artifact s' :
  initiate_data_validation env self s = (Ok artifact, s') →
  ∃ train_df test_df s2 (schema_train schema_test dataset_drift : bool),
    pd_read_csv env (trained_file_path (data_ingestion_artifact self)) (world s)
      = Ok train_df ∧
    pd_read_csv env (test_file_path (data_ingestion_artifact self)) (world s)
      = Ok test_df ∧
    detect_dataset_drift env self train_df test_df
      (add_events s (start_log ++
         [EvReadCsv (trained_file_path (data_ingestion_artifact self));
          EvReadCsv (test_file_path (data_ingestion_artifact self))]))
      = (Ok dataset_drift, s2) ∧
    (validate_schema_columns self train_df s2).1 = Ok schema_train ∧
    (validate_schema_columns self test_df s2).1 = Ok schema_test ∧
    validation_status artifact = schema_train && schema_test && negb dataset_drift.
Proof.
  intros Hrun.
  apply initiate_data_validation_Ok_inv in Hrun
    as (train_df & test_df & drift & s2 & n & Htrain & Htest & Hdrift & Hn & -> & _).
  eexists train_df, test_df, s2, _, _, drift.
  rewrite !validate_schema_columns_run, Hn. simpl.
  repeat split; done.
Qed.

(** C9. In every run that emits an artifact, the valid train and test
    paths are the ingestion artifact's paths and the invalid paths and the
    drift report path are the configured ones, unchanged, for either value
    of [validation_status]. *)
Theorem artifact_paths_pass_through self s artifact s' :
  initiate_data_validation env self s = (Ok artifact, s') →
  valid_train_file_path artifact = trained_file_path (data_ingestion_artifact self) ∧
  valid_test_file_path artifact = test_file_path (data_ingestion_artifact self) ∧
  invalid_train_file_path artifact =
    cfg_invalid_train_file_path (data_validation_config self) ∧
  invalid_test_file_path artifact =
    cfg_invalid_test_file_path (data_validation_config self) ∧
  drift_report_file_path artifact =
    cfg_drift_report_file_path (data_validation_config self).
Proof.
  intros Hrun.
  apply initiate_data_validation_Ok_inv in Hrun
    as (? & ? & ? & ? & ? & _ & _ & _ & _ & -> & _).
  done.
Qed.

(** C6. A run either returns a complete artifact or raises a
    [CustomerException]; when reading the train table fails, or the train
    table is read and reading the test table fails, the run raises the
    failure wrapped by [read_data] and again by the orchestrator, returns
    no artifact, leaves the world as it was and hands no report to the
    writer. *)
Theorem load_failure_aborts self s :
  let run := initiate_data_validation env self s in
  ((∃ status, run.1 = Ok (artifact_of self status)) ∨
   (∃ e, run.1 = Err (CustomerException e))) ∧
  ∀ e,
    pd_read_csv env (trained_file_path (data_ingestion_artifact self)) (world s)
      = Err e ∨
    (is_Ok (pd_read_csv env (trained_file_path (data_ingestion_artifact self))
              (world s)) = true ∧
     pd_read_csv env (test_file_path (data_ingestion_artifact self)) (world s)
      = Err e) →
    run.1 = Err (CustomerException (CustomerException e)) ∧
    world run.2 = world s ∧
    reports_written (trace run.2) = reports_written (trace s).
Proof.
  simpl. rewrite initiate_data_validation_run. simpl. split.
  - destruct (pd_read_csv env (trained_file_path _) _) as [train_df|e]; [|eauto].
    destruct (pd_read_csv env (test_file_path _) _) as [test_df|e]; [|eauto].
    destruct (detect_dataset_drift _ _ _ _ _) as [[drift|e] s2]; [|eauto].
    destruct (validate_dataset_schema_columns _ _ _ _)
      as [[[train_status test_status]|e] s3]; eauto.
  - intros e [Htrain|[Htrain Htest]].
    + rewrite Htrain. simpl. unfold reports_written.
      rewrite omap_app. simpl. by rewrite app_nil_r.
    + destruct (pd_read_csv env (trained_file_path _) _) as [train_df|e']; [|done].
      rewrite Htest. simpl. unfold reports_written.
      rewrite omap_app. simpl. by rewrite app_nil_r.
Qed.
End Orchestrator.


(** ** Drift detection *)

Section DriftDetection.
Context {W : Type}.
Variable env : Collaborators W.
Implicit Types (s : State W) (self : DataValidation).

Lemma drift_summary_loop_without_summary ms acc :
  forallb metric_without_summary ms = true →
  drift_summary_loop ms acc = Ok acc.
Proof.
  induction ms as [|m ms IH]; [done|]. simpl.
  intros [Hm Hms]%andb_prop. rewrite IH by done. clear IH Hms.
  destruct m; try done. simpl in *.
  unfold mbind, result_mbind, result_bind. simpl.
  destruct (py_contains "dataset_drift" _) as [[]|]; try done.
  destruct (py_contains "number_of_drifted_columns" _) as [[]|]; done.
Qed.

(** The first metric entry whose result has one of the two summary keys
    decides: the flag is the truth value of its [dataset_drift], [False]
    when that key is missing. *)
Lemma drift_summary_loop_first_summary ms md rd ms' acc :
  forallb metric_without_summary ms = true →
  md !! "result" = Some (VDict rd) →
  is_Some (rd !! "dataset_drift") ∨ is_Some (rd !! "number_of_drifted_columns") →
  drift_summary_loop (ms ++ VDict md :: ms') acc =
    Ok (py_bool (default (VBool false) (rd !! "dataset_drift")),
        default VNone (rd !! "number_of_columns"),
        default VNone (rd !! "number_of_drifted_columns")).
Proof.
  intros Hms Hres Hkey. induction ms as [|m ms IH]; simpl.
  - unfold mbind, result_mbind, result_bind. simpl. rewrite Hres. simpl.
    destruct Hkey as [Hkey|Hkey].
    + by rewrite bool_decide_eq_true_2.
    + rewrite (bool_decide_eq_true_2 _ Hkey). by case_bool_decide.
  - apply andb_prop in Hms as [Hm Hms]. rewrite <- (IH Hms). clear IH Hms.
    destruct m; try done. simpl in *.
    unfold mbind, result_mbind, result_bind. simpl.
    destruct (py_contains "dataset_drift" _) as [[]|]; try done.
    destruct (py_contains "number_of_drifted_columns" _) as [[]|]; done.
Qed.

Lemma drift_summary_without_summary report_dict :
  report_without_summary report_dict = true →
  drift_summary report_dict = Ok (false, VNone, VNone).
Proof.
  destruct report_dict; try done. simpl.
  unfold drift_summary, mbind, result_mbind, result_bind. simpl.
  destruct (py_iter _) as [ms|]; [|done].
  apply drift_summary_loop_without_summary.
Qed.

(** C10. When the engine produced a report dictionary, the dictionary was
    written, and no metric entry of it has a [dataset_drift] or
    [number_of_drifted_columns] key in its result, [detect_dataset_drift]
    returns [False] and does not raise. *)
Theorem detect_dataset_drift_no_summary_returns_false
    self reference_df current_df s evaluation report_dict :
  report_run env current_df reference_df = Ok evaluation →
  dump_dict evaluation = Ok report_dict →
  (write_yaml_file env (cfg_drift_report_file_path (data_validation_config self))
     report_dict (world s)).1 = Ok () →
  report_without_summary report_dict = true →
  (detect_dataset_drift env self reference_df current_df s).1 = Ok false.
Proof.
  intros Hrun Hdump Hwrite Hnone.
  rewrite detect_dataset_drift_run, Hrun. simpl. rewrite Hdump, Hwrite.
  by rewrite drift_summary_without_summary.
Qed.


Lemma reports_written_app evs1 evs2 :
  reports_written (evs1 ++ evs2) = reports_written evs1 ++ reports_written evs2.
Proof. apply omap_app. Qed.

Lemma reports_written_drift_log n_features n_drifted :
  reports_written (drift_log n_features n_drifted) = [].
Proof. unfold drift_log. by destruct (_ && _). Qed.

(** C5, as amended. [detect_dataset_drift] itself persists the report: once
    the engine has produced the report dictionary, the method hands it to
    [write_yaml_file] at the configured drift report path, so the world it
    leaves is the one the writer left; and the orchestrator writes nothing
    of its own: when both tables load, the world and the reports written
    at the end of the run are those at the return of
    [detect_dataset_drift]. *)
Theorem report_persisted_inside_drift_detection self s :
  let file_path := cfg_drift_report_file_path (data_validation_config self) in
  (∀ reference_df current_df evaluation report_dict,
     report_run env current_df reference_df = Ok evaluation →
     dump_dict evaluation = Ok report_dict →
     let s' := (detect_dataset_drift env self reference_df current_df s).2 in
     world s' = (write_yaml_file env file_path report_dict (world s)).2 ∧
     reports_written (trace s') =
       reports_written (trace s) ++ [(file_path, report_dict)]) ∧
  (∀ train_df test_df,
     pd_read_csv env (trained_file_path (data_ingestion_artifact self)) (world s)
       = Ok train_df →
     pd_read_csv env (test_file_path (data_ingestion_artifact self)) (world s)
       = Ok test_df →
     let loaded :=
       add_events s (start_log ++
         [EvReadCsv (trained_file_path (data_ingestion_artifact self));
          EvReadCsv (test_file_path (data_ingestion_artifact self))]) in
     let s1 := (detect_dataset_drift env self train_df test_df loaded).2 in
     let s' := (initiate_data_validation env self s).2 in
     world s' = world s1 ∧
     reports_written (trace s') = reports_written (trace s1)).
Proof.
  simpl. split.
  - intros reference_df current_df evaluation report_dict Hrun Hdump.
    rewrite detect_dataset_drift_run, Hrun. simpl. rewrite Hdump.
    destruct (write_yaml_file _ _ _ _) as [[[]|e] w]; simpl.
    + destruct (drift_summary _) as [[[? ?] ?]|]; simpl; split; try done.
      * rewrite !reports_written_app, reports_written_drift_log. simpl.
        by rewrite app_nil_r.
      * by rewrite !reports_written_app.
    + split; [done|]. by rewrite !reports_written_app.
  - intros train_df test_df Htrain Htest.
    rewrite initiate_data_validation_run. simpl. rewrite Htrain, Htest.
    destruct (detect_dataset_drift _ _ _ _ _) as [[drift|e] s1]; simpl; [|done].
    rewrite validate_dataset_schema_columns_run.
    destruct (expected_column_count self) as [n|e]; simpl.
    + split; [done|]. rewrite !reports_written_app. simpl. by rewrite !app_nil_r.
    + split; [done|]. rewrite !reports_written_app. simpl. by rewrite !app_nil_r.
Qed.
End DriftDetection.


(** ** Order of the calls *)

Section Order.
Context {W : Type}.
Variable env : Collaborators W.
Implicit Types (s : State W) (self : DataValidation).

(** C4, as amended. The calls of every run are, in this order: the read
    of the train table, the read of the test table, the engine's run on
    (test, train), the print and the dump of its evaluation, the write of
    the report, the log of the drift counts when the summary has both, the
    schema check on the train table, the one on the test table, and the
    log of the two verdicts that are then combined into the returned
    artifact; a run stops at the first step that fails.  The report is
    written within the drift detection, before the summary is read off it
    (it is written also when that reading fails), and before either schema
    check.  In terms of phases: load, drift detection with the persistence
    inside it, schema checks, combination. *)
Theorem phases_in_code_order self s :
  let run := initiate_data_validation env self s in
  let evs := events_since s run.2 in
  let train := trained_file_path (data_ingestion_artifact self) in
  let test := test_file_path (data_ingestion_artifact self) in
  let file_path := cfg_drift_report_file_path (data_validation_config self) in
  trace run.2 = trace s ++ evs ∧
  in_order code_rank evs = true ∧
  (is_Ok run.1 = true →
   ∃ logged, (logged = [] ∨ logged = [DETECT_DRIFT]) ∧
     phases evs =
       [LOAD_DATASETS; LOAD_DATASETS;
        DETECT_DRIFT; DETECT_DRIFT; DETECT_DRIFT; PERSIST_REPORT] ++ logged ++
       [CHECK_SCHEMAS; CHECK_SCHEMAS; COMBINE]) ∧
  evs =
    start_log ++ EvReadCsv train ::
    match pd_read_csv env train (world s) with
    | Err _ => []
    | Ok train_df =>
      EvReadCsv test ::
      match pd_read_csv env test (world s) with
      | Err _ => []
      | Ok test_df =>
        EvReportRun test_df train_df ::
        match report_run env test_df train_df with
        | Err _ => []
        | Ok evaluation =>
          EvPrint evaluation :: EvDumpDict evaluation ::
          match dump_dict evaluation with
          | Err _ => []
          | Ok report_dict =>
            EvWriteYaml file_path report_dict ::
            match (write_yaml_file env file_path report_dict (world s)).1,
                  drift_summary report_dict with
            | Ok _, Ok (_, n_features, n_drifted) =>
              drift_log n_features n_drifted ++
              match expected_column_count self with
              | Err _ => take 2 (schema_log false false)
              | Ok n =>
                let train_status := bool_decide (length (columns train_df) = n) in
                let test_status := bool_decide (length (columns test_df) = n) in
                schema_log train_status test_status ++
                [EvLog (MsgSchemaStatus train_status test_status)]
              end
            | _, _ => []
            end
          end
        end
      end
    end.
Proof.
  cbv zeta. rewrite initiate_data_validation_run. cbv zeta.
  destruct (pd_read_csv env (trained_file_path _) _) as [train_df|]; simpl.
  2: { norm_trace. done. }
  destruct (pd_read_csv env (test_file_path _) _) as [test_df|]; simpl.
  2: { norm_trace. done. }
  rewrite detect_dataset_drift_run.
  destruct (report_run _ _ _) as [evaluation|]; simpl.
  2: { norm_trace. done. }
  destruct (dump_dict evaluation) as [report_dict|]; simpl.
  2: { norm_trace. done. }
  destruct (write_yaml_file _ _ _ _) as [[[]|] w]; simpl.
  2: { norm_trace. done. }
  destruct (drift_summary _) as [[[drift n_features] n_drifted]|]; simpl.
  2: { norm_trace. done. }
  rewrite validate_dataset_schema_columns_run.
  destruct (expected_column_count self) as [n|]; simpl.
  - norm_trace. unfold drift_log.
    destruct (is_not_None n_features && is_not_None n_drifted); simpl.
    + repeat split; try done. intros _. exists [DETECT_DRIFT]. auto.
    + repeat split; try done. intros _. exists []. auto.
  - norm_trace. unfold drift_log.
    destruct (is_not_None n_features && is_not_None n_drifted); done.
Qed.
End Order.


(** ** Runs on concrete tables *)

(** The eight combinations of the two schema verdicts and the drift flag,
    each run through the orchestrator. *)
Lemma validation_status_truth_table (schema_train schema_test dataset_drift : bool) :
  let self := MemFS.self0 (MemFS.schema_of ["age"]) in
  let s := MemFS.start (MemFS.table schema_train) (MemFS.table schema_test) in
  (validate_schema_columns self (MemFS.table schema_train) s).1 = Ok schema_train ∧
  (validate_schema_columns self (MemFS.table schema_test) s).1 = Ok schema_test ∧
  (detect_dataset_drift (MemFS.reporting (MemFS.summary_report dataset_drift 1 0))
     self (MemFS.table schema_train) (MemFS.table schema_test) s).1
    = Ok dataset_drift ∧
  (MemFS.combination_run schema_train schema_test dataset_drift).1 =
    Ok (artifact_of self (schema_train && schema_test && negb dataset_drift)).
Proof. by destruct schema_train, schema_test, dataset_drift; vm_compute. Qed.

Lemma validation_status_combination_witness :
  let run := MemFS.combination_run true true false in
  run = (Ok (artifact_of (MemFS.self0 (MemFS.schema_of ["age"])) true), run.2) ∧
  ∃ train_df test_df s2 (schema_train schema_test dataset_drift : bool),
    MemFS.read "train.csv" (world (MemFS.start MemFS.ages MemFS.ages)) = Ok train_df ∧
    MemFS.read "test.csv" (world (MemFS.start MemFS.ages MemFS.ages)) = Ok test_df ∧
    detect_dataset_drift (MemFS.reporting (MemFS.summary_report false 1 0))
      (MemFS.self0 (MemFS.schema_of ["age"])) train_df test_df
      (add_events (MemFS.start MemFS.ages MemFS.ages)
         (start_log ++ [EvReadCsv "train.csv"; EvReadCsv "test.csv"]))
      = (Ok dataset_drift, s2) ∧
    (validate_schema_columns (MemFS.self0 (MemFS.schema_of ["age"])) train_df s2).1
      = Ok schema_train ∧
    (validate_schema_columns (MemFS.self0 (MemFS.schema_of ["age"])) test_df s2).1
      = Ok schema_test ∧
    true = schema_train && schema_test && negb dataset_drift.
Proof.
  assert (H : MemFS.combination_run true true false =
              (Ok (artifact_of (MemFS.self0 (MemFS.schema_of ["age"])) true),
               (MemFS.combination_run true true false).2))
    by (vm_compute; reflexivity).
  split; [exact H|].
  exact (validation_status_combination _ _ _ _ _ H).
Defined.

Lemma validate_schema_columns_iff_witness :
  let self := MemFS.self0 (MemFS.schema_of ["age"; "income"]) in
  let s := MemFS.start [] MemFS.ages in
  expected_column_count self = Ok 2 ∧
  ∃ status : bool,
    validate_schema_columns self [] s =
      (Ok status, add_events s [EvLog (MsgColumnPresent status)]) ∧
    (status = true ↔ length (columns ([] : DataFrame)) = 2).
Proof.
  split; [reflexivity|].
  apply (validate_schema_columns_iff
           (MemFS.self0 (MemFS.schema_of ["age"; "income"])) [] 2).
  reflexivity.
Defined.



(** C4, counterexample. In a run on two equal tables the engine is called
    and the report written before either schema check is made, and the
    report is written before the verdicts are combined. *)
Lemma phases_in_spec_order_counterexample :
  let run := MemFS.combination_run true true false in
  let evs := events_since (MemFS.start MemFS.ages MemFS.ages) run.2 in
  is_Ok run.1 = true ∧
  phases evs =
    [LOAD_DATASETS; LOAD_DATASETS;
     DETECT_DRIFT; DETECT_DRIFT; DETECT_DRIFT; PERSIST_REPORT; DETECT_DRIFT;
     CHECK_SCHEMAS; CHECK_SCHEMAS; COMBINE] ∧
  in_order spec_rank evs = false.
Proof. by vm_compute. Qed.

(** C5, counterexample. A call of [detect_dataset_drift] in a world
    without a report file returns with the report file written. *)
Lemma detect_dataset_drift_side_effect_counterexample :
  let self := MemFS.self0 (MemFS.schema_of ["age"]) in
  let s := MemFS.start MemFS.ages MemFS.ages in
  let run := detect_dataset_drift (MemFS.reporting MemFS.empty_report) self
               MemFS.ages MemFS.ages s in
  run.1 = Ok false ∧
  world s !! "report.yaml" = None ∧
  world run.2 !! "report.yaml" = Some (MemFS.FYaml MemFS.empty_report) ∧
  reports_written (events_since s run.2) = [("report.yaml", MemFS.empty_report)].
Proof. by vm_compute. Qed.

Lemma load_failure_aborts_witness :
  let env := MemFS.reporting MemFS.empty_report in
  let self := MemFS.self0 (MemFS.schema_of ["age"]) in
  let s := MemFS.start_without_test MemFS.ages in
  let run := initiate_data_validation env self s in
  (is_Ok (MemFS.read "train.csv" (world s)) = true ∧
   MemFS.read "test.csv" (world s) = Err (Raised "FileNotFoundError" "test.csv")) ∧
  run.1 = Err (CustomerException (CustomerException
                 (Raised "FileNotFoundError" "test.csv"))) ∧
  world run.2 = world s ∧
  reports_written (trace run.2) = reports_written (trace s).
Proof.
  assert (H : is_Ok (MemFS.read "train.csv"
                       (world (MemFS.start_without_test MemFS.ages))) = true ∧
              MemFS.read "test.csv" (world (MemFS.start_without_test MemFS.ages))
                = Err (Raised "FileNotFoundError" "test.csv"))
    by (split; reflexivity).
  split; [exact H|].
  exact (proj2 (load_failure_aborts (MemFS.reporting MemFS.empty_report)
                  (MemFS.self0 (MemFS.schema_of ["age"]))
                  (MemFS.start_without_test MemFS.ages))
           _ (or_intror H)).
Defined.

Lemma artifact_paths_pass_through_witness :
  let run := MemFS.combination_run true false true in
  let artifact := artifact_of (MemFS.self0 (MemFS.schema_of ["age"])) false in
  run = (Ok artifact, run.2) ∧
  valid_train_file_path artifact = "train.csv" ∧
  valid_test_file_path artifact = "test.csv" ∧
  invalid_train_file_path artifact = "invalid/train.csv" ∧
  invalid_test_file_path artifact = "invalid/test.csv" ∧
  drift_report_file_path artifact = "report.yaml".
Proof.
  assert (H : MemFS.combination_run true false true =
              (Ok (artifact_of (MemFS.self0 (MemFS.schema_of ["age"])) false),
               (MemFS.combination_run true false true).2))
    by (vm_compute; reflexivity).
  split; [exact H|].
  exact (artifact_paths_pass_through _ _ _ _ _ H).
Defined.

Lemma detect_dataset_drift_no_summary_returns_false_witness :
  let env := MemFS.reporting MemFS.column_report in
  let self := MemFS.self0 (MemFS.schema_of ["age"]) in
  let s := MemFS.start MemFS.ages MemFS.ages in
  (report_run env MemFS.ages MemFS.ages = Ok (MemFS.evaluation_of MemFS.column_report) ∧
   dump_dict (MemFS.evaluation_of MemFS.column_report) = Ok MemFS.column_report ∧
   (write_yaml_file env "report.yaml" MemFS.column_report (world s)).1 = Ok () ∧
   report_without_summary MemFS.column_report = true) ∧
  (detect_dataset_drift env self MemFS.ages MemFS.ages s).1 = Ok false.
Proof.
  split; [by vm_compute|].
  apply (detect_dataset_drift_no_summary_returns_false
           (MemFS.reporting MemFS.column_report)
           (MemFS.self0 (MemFS.schema_of ["age"])) MemFS.ages MemFS.ages
           (MemFS.start MemFS.ages MemFS.ages)
           (MemFS.evaluation_of MemFS.column_report) MemFS.column_report);
    reflexivity.
Defined.

Lemma phases_in_code_order_witness :
  let report_dict := MemFS.report_of [VInt 5] in
  let env := MemFS.reporting MemFS.column_report in
  let self := MemFS.self0 (MemFS.schema_of ["age"]) in
  let s := MemFS.start MemFS.ages (MemFS.table false) in
  let run := initiate_data_validation env self s in
  let broken :=
    initiate_data_validation (MemFS.reporting report_dict) self s in
  (run.1 = Ok (artifact_of self false) ∧
   events_since s run.2 =
     start_log ++
     [EvReadCsv "train.csv"; EvReadCsv "test.csv";
      EvReportRun (MemFS.table false) MemFS.ages;
      EvPrint (MemFS.evaluation_of MemFS.column_report);
      EvDumpDict (MemFS.evaluation_of MemFS.column_report);
      EvWriteYaml "report.yaml" MemFS.column_report] ++
     schema_log true false ++ [EvLog (MsgSchemaStatus true false)]) ∧
  (is_Ok broken.1 = false ∧
   events_since s broken.2 =
     start_log ++
     [EvReadCsv "train.csv"; EvReadCsv "test.csv";
      EvReportRun (MemFS.table false) MemFS.ages;
      EvPrint (MemFS.evaluation_of report_dict);
      EvDumpDict (MemFS.evaluation_of report_dict);
      EvWriteYaml "report.yaml" report_dict]).
Proof.
  cbv zeta. split; (split; [by vm_compute|]).
  - rewrite (proj2 (proj2 (proj2 (phases_in_code_order
               (MemFS.reporting MemFS.column_report)
               (MemFS.self0 (MemFS.schema_of ["age"]))
               (MemFS.start MemFS.ages (MemFS.table false)))))).
    by vm_compute.
  - rewrite (proj2 (proj2 (proj2 (phases_in_code_order
               (MemFS.reporting (MemFS.report_of [VInt 5]))
               (MemFS.self0 (MemFS.schema_of ["age"]))
               (MemFS.start MemFS.ages (MemFS.table false)))))).
    by vm_compute.
Defined.

Lemma report_persisted_inside_drift_detection_witness :
  let env := MemFS.reporting MemFS.column_report in
  let self := MemFS.self0 (MemFS.schema_of ["age"]) in
  let s := MemFS.start MemFS.ages MemFS.ages in
  let s' := (detect_dataset_drift env self MemFS.ages MemFS.ages s).2 in
  (report_run env MemFS.ages MemFS.ages = Ok (MemFS.evaluation_of MemFS.column_report) ∧
   dump_dict (MemFS.evaluation_of MemFS.column_report) = Ok MemFS.column_report) ∧
  world s' = (write_yaml_file env "report.yaml" MemFS.column_report (world s)).2 ∧
  reports_written (trace s') =
    reports_written (trace s) ++ [("report.yaml", MemFS.column_report)].
Proof.
  split; [by vm_compute|].
  apply (proj1 (report_persisted_inside_drift_detection
                  (MemFS.reporting MemFS.column_report)
                  (MemFS.self0 (MemFS.schema_of ["age"]))
                  (MemFS.start MemFS.ages MemFS.ages))
           MemFS.ages MemFS.ages (MemFS.evaluation_of MemFS.column_report)
           MemFS.column_report); reflexivity.
Defined.

(** ** Further properties of the methods *)

Section Outcomes.
Context {W : Type}.
Variable env : Collaborators W.
Implicit Types (s : State W) (self : DataValidation).

(** X1. [initiate_data_validation] returns an artifact exactly when seven
    steps go through: both tables load, the engine runs, the evaluation
    dumps to a dictionary, the writer accepts it, the summary can be read
    off it, and the schema configuration gives an expected column count;
    the artifact then carries the configured paths and the status computed
    from the two column counts and the drift flag.  A table that fails
    validation is thus reported in the artifact, never as an exception. *)
Theorem initiate_data_validation_returns_iff self s artifact :
  (initiate_data_validation env self s).1 = Ok artifact ↔
  ∃ train_df test_df evaluation report_dict drift n_features n_drifted n,
    pd_read_csv env (trained_file_path (data_ingestion_artifact self)) (world s)
      = Ok train_df ∧
    pd_read_csv env (test_file_path (data_ingestion_artifact self)) (world s)
      = Ok test_df ∧
    report_run env test_df train_df = Ok evaluation ∧
    dump_dict evaluation = Ok report_dict ∧
    (write_yaml_file env (cfg_drift_report_file_path (data_validation_config self))
       report_dict (world s)).1 = Ok () ∧
    drift_summary report_dict = Ok (drift, n_features, n_drifted) ∧
    expected_column_count self = Ok n ∧
    artifact = artifact_of self
      (bool_decide (length (columns train_df) = n)
       && bool_decide (length (columns test_df) = n)
       && negb drift).
Proof.
  rewrite initiate_data_validation_run. cbv zeta. split.
  - destruct (pd_read_csv env (trained_file_path _) _) as [train_df|] eqn:Htrain;
      [|done].
    destruct (pd_read_csv env (test_file_path _) _) as [test_df|] eqn:Htest;
      [|done].
    rewrite detect_dataset_drift_run. cbn [world add_events].
    destruct (report_run _ _ _) as [evaluation|] eqn:Hrun; [|done]. cbv zeta.
    destruct (dump_dict evaluation) as [report_dict|] eqn:Hdump; [|done].
    destruct (write_yaml_file _ _ _ _).1 as [[]|] eqn:Hwrite; [|done].
    destruct (drift_summary _) as [[[drift n_features] n_drifted]|] eqn:Hsum;
      [|done].
    rewrite validate_dataset_schema_columns_run.
    destruct (expected_column_count self) as [n|] eqn:Hn; [|done].
    simpl. intros [= <-].
    by exists train_df, test_df, evaluation, report_dict, drift, n_features,
      n_drifted, n.
  - intros (train_df & test_df & evaluation & report_dict & drift & n_features
            & n_drifted & n & -> & -> & Hrun & Hdump & Hwrite & Hsum & Hn & ->).
    rewrite detect_dataset_drift_run, Hrun. cbn [world add_events]. cbv zeta.
    rewrite Hdump, Hwrite, Hsum, validate_dataset_schema_columns_run, Hn. done.
Qed.

(** X2. An artifact with [validation_status] true means that the train and
    the test table were loaded with the same number of columns, the one the
    schema configuration expects, and that the drift flag returned by
    [detect_dataset_drift] was false. *)
Theorem valid_status_means_equal_column_counts self s artifact s' :
  initiate_data_validation env self s = (Ok artifact, s') →
  validation_status artifact = true →
  ∃ train_df test_df s2,
    pd_read_csv env (trained_file_path (data_ingestion_artifact self)) (world s)
      = Ok train_df ∧
    pd_read_csv env (test_file_path (data_ingestion_artifact self)) (world s)
      = Ok test_df ∧
    length (columns train_df) = length (columns test_df) ∧
    expected_column_count self = Ok (length (columns train_df)) ∧
    detect_dataset_drift env self train_df test_df
      (add_events s (start_log ++
         [EvReadCsv (trained_file_path (data_ingestion_artifact self));
          EvReadCsv (test_file_path (data_ingestion_artifact self))]))
      = (Ok false, s2).
Proof.
  intros Hrun Hvalid.
  apply initiate_data_validation_Ok_inv in Hrun
    as (train_df & test_df & drift & s2 & n & Htrain & Htest & Hdrift & Hn & -> & _).
  simpl in Hvalid.
  apply andb_prop in Hvalid as [[Ht Hs]%andb_prop Hd].
  apply bool_decide_eq_true_1 in Ht. apply bool_decide_eq_true_1 in Hs.
  apply negb_true_iff in Hd. subst drift.
  exists train_df, test_df, s2. rewrite Ht. repeat split; done.
Qed.
End Outcomes.

Section SchemaChecks.
Context {W : Type}.
Variable env : Collaborators W.
Implicit Types (s : State W) (self : DataValidation).

(** X3. The schema check looks at the number of columns only: two tables
    with the same number of columns get the same outcome and the same log
    line, whatever their column names and cells are. *)
Theorem schema_check_counts_only self (dataframe1 dataframe2 : DataFrame) s :
  length (columns dataframe1) = length (columns dataframe2) →
  validate_schema_columns self dataframe1 s =
  validate_schema_columns self dataframe2 s.
Proof.
  intros Hlen. rewrite !validate_schema_columns_run.
  destruct (expected_column_count self) as [n|]; [|done].
  simpl. by rewrite Hlen.
Qed.

(** X4. [validate_dataset_schema_columns] is the two single checks put
    together: it leaves the world alone, returns the pair of their
    verdicts, wraps a failure of either once more, and makes the test
    check also when the train check came out false, so both verdicts are
    logged, train first. *)
Theorem validate_dataset_schema_columns_pairs_checks self
    (train_set test_set : DataFrame) s :
  let both := validate_dataset_schema_columns self train_set test_set s in
  world both.2 = world s ∧
  both.1 =
    match (validate_schema_columns self train_set s).1 with
    | Err e => Err (CustomerException e)
    | Ok train_status =>
        match (validate_schema_columns self test_set s).1 with
        | Err e => Err (CustomerException e)
        | Ok test_status => Ok (train_status, test_status)
        end
    end ∧
  ∀ train_status test_status,
    both.1 = Ok (train_status, test_status) →
    verdicts_logged (events_since s both.2) = [train_status; test_status].
Proof.
  cbv zeta.
  rewrite validate_dataset_schema_columns_run, !validate_schema_columns_run.
  destruct (expected_column_count self) as [n|]; simpl.
  - repeat split. intros train_status test_status [= <- <-]. by norm_trace.
  - repeat split. done.
Qed.

(** X5. A schema configuration that is a dictionary without the key
    [columns] is found out late: when the tables load and the drift
    detection goes through, the run raises the [KeyError] wrapped three
    times (by the check, by the pair of checks, by the orchestrator), with
    the drift report already written and no verdict logged. *)
Theorem missing_schema_columns_key self s d
    train_df test_df evaluation report_dict summary :
  _schema_config self = VDict d →
  d !! "columns" = None →
  pd_read_csv env (trained_file_path (data_ingestion_artifact self)) (world s)
    = Ok train_df →
  pd_read_csv env (test_file_path (data_ingestion_artifact self)) (world s)
    = Ok test_df →
  report_run env test_df train_df = Ok evaluation →
  dump_dict evaluation = Ok report_dict →
  (write_yaml_file env (cfg_drift_report_file_path (data_validation_config self))
     report_dict (world s)).1 = Ok () →
  drift_summary report_dict = Ok summary →
  let run := initiate_data_validation env self s in
  run.1 = Err (CustomerException (CustomerException (CustomerException
                 (Raised "KeyError" "columns")))) ∧
  world run.2 =
    (write_yaml_file env (cfg_drift_report_file_path (data_validation_config self))
       report_dict (world s)).2 ∧
  reports_written (events_since s run.2) =
    [(cfg_drift_report_file_path (data_validation_config self), report_dict)] ∧
  verdicts_logged (events_since s run.2) = [].
Proof.
  intros Hschema Hkey Htrain Htest Hrun Hdump Hwrite Hsum. cbv zeta.
  assert (Hn : expected_column_count self = Err (Raised "KeyError" "columns")).
  { unfold expected_column_count. rewrite Hschema. simpl. by rewrite Hkey. }
  rewrite initiate_data_validation_run. cbv zeta. rewrite Htrain, Htest.
  rewrite detect_dataset_drift_run, Hrun. cbn [world add_events]. cbv zeta.
  rewrite Hdump, Hwrite, Hsum. destruct summary as [[drift n_features] n_drifted].
  rewrite validate_dataset_schema_columns_run, Hn.
  norm_trace. unfold drift_log.
  by destruct (is_not_None n_features && is_not_None n_drifted).
Qed.
End SchemaChecks.

Section Failures.
Context {W : Type}.
Variable env : Collaborators W.
Implicit Types (s : State W) (self : DataValidation).

(** X6. When a table cannot be read the run stops there: after a failed
    read of the train table the only call made is that read, the test
    table is not read; after a failed read of the test table the two reads
    are the only calls.  The engine is never called and no schema check is
    made. *)
Theorem load_failure_makes_no_further_call self s e :
  let train := trained_file_path (data_ingestion_artifact self) in
  let test := test_file_path (data_ingestion_artifact self) in
  pd_read_csv env train (world s) = Err e ∨
  (is_Ok (pd_read_csv env train (world s)) = true ∧
   pd_read_csv env test (world s) = Err e) →
  events_since s (initiate_data_validation env self s).2 =
    start_log ++ EvReadCsv train ::
      (if is_Ok (pd_read_csv env train (world s)) then [EvReadCsv test] else []).
Proof.
  cbv zeta. rewrite initiate_data_validation_run. cbv zeta.
  intros [Htrain|[Htrain Htest]].
  - rewrite Htrain. by norm_trace.
  - destruct (pd_read_csv env (trained_file_path _) _) as [train_df|]; [|done].
    rewrite Htest. by norm_trace.
Qed.

(** X7. A failure of the engine, or of [dump_dict] on its evaluation,
    reaches the caller of [initiate_data_validation] wrapped twice (by
    [detect_dataset_drift] and by the orchestrator); the world is left as
    it was, nothing is handed to the writer and no schema check is made. *)
Theorem engine_failure_wrapped_twice self s train_df test_df e :
  pd_read_csv env (trained_file_path (data_ingestion_artifact self)) (world s)
    = Ok train_df →
  pd_read_csv env (test_file_path (data_ingestion_artifact self)) (world s)
    = Ok test_df →
  report_run env test_df train_df = Err e ∨
  (∃ evaluation, report_run env test_df train_df = Ok evaluation ∧
                 dump_dict evaluation = Err e) →
  let run := initiate_data_validation env self s in
  run.1 = Err (CustomerException (CustomerException e)) ∧
  world run.2 = world s ∧
  reports_written (events_since s run.2) = [] ∧
  verdicts_logged (events_since s run.2) = [].
Proof.
  intros Htrain Htest Hfail. cbv zeta.
  rewrite initiate_data_validation_run. cbv zeta. rewrite Htrain, Htest.
  rewrite detect_dataset_drift_run. cbn [world add_events].
  destruct Hfail as [Hrun|(evaluation & Hrun & Hdump)]; rewrite Hrun.
  - by norm_trace.
  - cbv zeta. rewrite Hdump. by norm_trace.
Qed.

(** X8. When the writer refuses the report the run is over: the failure is
    raised wrapped twice, the report was handed to the writer once, the
    summary is not read off it (no drift count is logged) and no schema
    check is made; the world is the one the failed write left. *)
Theorem write_failure_aborts_run self s train_df test_df evaluation report_dict e :
  let file_path := cfg_drift_report_file_path (data_validation_config self) in
  pd_read_csv env (trained_file_path (data_ingestion_artifact self)) (world s)
    = Ok train_df →
  pd_read_csv env (test_file_path (data_ingestion_artifact self)) (world s)
    = Ok test_df →
  report_run env test_df train_df = Ok evaluation →
  dump_dict evaluation = Ok report_dict →
  (write_yaml_file env file_path report_dict (world s)).1 = Err e →
  let run := initiate_data_validation env self s in
  run.1 = Err (CustomerException (CustomerException e)) ∧
  world run.2 = (write_yaml_file env file_path report_dict (world s)).2 ∧
  events_since s run.2 =
    start_log ++
    [EvReadCsv (trained_file_path (data_ingestion_artifact self));
     EvReadCsv (test_file_path (data_ingestion_artifact self));
     EvReportRun test_df train_df; EvPrint evaluation; EvDumpDict evaluation;
     EvWriteYaml file_path report_dict].
Proof.
  cbv zeta. intros Htrain Htest Hrun Hdump Hwrite.
  rewrite initiate_data_validation_run. cbv zeta. rewrite Htrain, Htest.
  rewrite detect_dataset_drift_run, Hrun. cbn [world add_events]. cbv zeta.
  rewrite Hdump, Hwrite. by norm_trace.
Qed.
End Failures.

Section Summary.
Context {W : Type}.
Variable env : Collaborators W.
Implicit Types (s : State W) (self : DataValidation).

Lemma drift_summary_loop_not_a_dict ms m ms' acc :
  forallb metric_without_summary ms = true →
  (∀ md, m ≠ VDict md) →
  drift_summary_loop (ms ++ m :: ms') acc =
    Err (Raised "AttributeError" (type_name m +:+ " object has no attribute get")).
Proof.
  intros Hms Hm. induction ms as [|m0 ms IH]; simpl.
  - destruct m; try done. by destruct (Hm d).
  - apply andb_prop in Hms as [Hm0 Hms]. rewrite <- (IH Hms). clear IH Hms.
    destruct m0; try done. simpl in *.
    unfold mbind, result_mbind, result_bind. simpl.
    destruct (py_contains "dataset_drift" _) as [[]|]; try done.
    destruct (py_contains "number_of_drifted_columns" _) as [[]|]; done.
Qed.

(** X9. The first metric entry whose result has a [dataset_drift] or a
    [number_of_drifted_columns] key decides, and the entries after it are
    not looked at: [detect_dataset_drift] returns the truth value of that
    entry's [dataset_drift], taken as [False] when the key is missing (so
    a result with only counts means no drift, whatever the counts), and
    logs the counts when both are there. *)
Theorem detect_dataset_drift_first_summary_decides self reference_df current_df s
    evaluation d ms md rd ms' :
  let file_path := cfg_drift_report_file_path (data_validation_config self) in
  report_run env current_df reference_df = Ok evaluation →
  dump_dict evaluation = Ok (VDict d) →
  (write_yaml_file env file_path (VDict d) (world s)).1 = Ok () →
  d !! "metrics" = Some (VList (ms ++ VDict md :: ms')) →
  forallb metric_without_summary ms = true →
  md !! "result" = Some (VDict rd) →
  is_Some (rd !! "dataset_drift") ∨ is_Some (rd !! "number_of_drifted_columns") →
  let run := detect_dataset_drift env self reference_df current_df s in
  run.1 = Ok (py_bool (default (VBool false) (rd !! "dataset_drift"))) ∧
  (rd !! "dataset_drift" = None → run.1 = Ok false) ∧
  events_since s run.2 =
    [EvReportRun current_df reference_df; EvPrint evaluation;
     EvDumpDict evaluation; EvWriteYaml file_path (VDict d)] ++
    drift_log (default VNone (rd !! "number_of_columns"))
              (default VNone (rd !! "number_of_drifted_columns")).
Proof.
  cbv zeta. intros Hrun Hdump Hwrite Hmetrics Hms Hres Hkey.
  assert (Hsum : drift_summary (VDict d) =
            Ok (py_bool (default (VBool false) (rd !! "dataset_drift")),
                default VNone (rd !! "number_of_columns"),
                default VNone (rd !! "number_of_drifted_columns"))).
  { unfold drift_summary, mbind, result_mbind, result_bind. simpl.
    rewrite Hmetrics. simpl. by apply drift_summary_loop_first_summary. }
  rewrite detect_dataset_drift_run, Hrun. cbv zeta. rewrite Hdump, Hwrite, Hsum.
  repeat split.
  - intros Hnone. by rewrite Hnone.
  - by norm_trace.
Qed.

(** X10. A report of another shape than a dictionary of metric
    dictionaries makes [detect_dataset_drift] raise, and only after the
    report went to the writer: a report that is no dictionary, or a metric
    entry that is no dictionary (met before any summary entry), raises an
    [AttributeError], a [metrics] value that cannot be iterated a
    [TypeError], each wrapped in a [CustomerException]. *)
Theorem malformed_report_raises_after_write self reference_df current_df s
    evaluation report_dict :
  let file_path := cfg_drift_report_file_path (data_validation_config self) in
  report_run env current_df reference_df = Ok evaluation →
  dump_dict evaluation = Ok report_dict →
  (write_yaml_file env file_path report_dict (world s)).1 = Ok () →
  let run := detect_dataset_drift env self reference_df current_df s in
  ((∀ d, report_dict ≠ VDict d) →
   ∃ msg, run.1 = Err (CustomerException (Raised "AttributeError" msg))) ∧
  (∀ d metrics e, report_dict = VDict d → d !! "metrics" = Some metrics →
     py_iter metrics = Err e →
     run.1 = Err (CustomerException e) ∧ exception_class e = "TypeError") ∧
  (∀ d ms m ms', report_dict = VDict d →
     d !! "metrics" = Some (VList (ms ++ m :: ms')) →
     forallb metric_without_summary ms = true →
     (∀ md, m ≠ VDict md) →
     ∃ msg, run.1 = Err (CustomerException (Raised "AttributeError" msg))) ∧
  (is_Ok run.1 = false →
   world run.2 = (write_yaml_file env file_path report_dict (world s)).2 ∧
   reports_written (events_since s run.2) = [(file_path, report_dict)]).
Proof.
  cbv zeta. intros Hrun Hdump Hwrite.
  rewrite detect_dataset_drift_run, Hrun. cbv zeta. rewrite Hdump, Hwrite.
  split; [|split; [|split]].
  - intros Hshape. destruct report_dict; try (by eexists).
    by destruct (Hshape d).
  - intros d metrics e -> Hmetrics Hiter. split.
    + unfold drift_summary, mbind, result_mbind, result_bind. simpl.
      rewrite Hmetrics. simpl. by rewrite Hiter.
    + destruct metrics; try done; simpl in Hiter; by inversion Hiter.
  - intros d ms m ms' -> Hmetrics Hms Hm.
    unfold drift_summary, mbind, result_mbind, result_bind. simpl.
    rewrite Hmetrics. simpl.
    rewrite (drift_summary_loop_not_a_dict ms m ms' _ Hms Hm). by eexists.
  - destruct (drift_summary report_dict) as [[[? ?] ?]|]; [done|].
    intros _. by norm_trace.
Qed.
End Summary.

(** ** Further runs on concrete tables *)

Lemma initiate_data_validation_returns_iff_witness :
  (initiate_data_validation (MemFS.reporting (MemFS.summary_report false 1 0))
     (MemFS.self0 (MemFS.schema_of ["age"]))
     (MemFS.start MemFS.ages (MemFS.table false))).1 =
  Ok (artifact_of (MemFS.self0 (MemFS.schema_of ["age"])) false).
Proof.
  apply (proj2 (initiate_data_validation_returns_iff
                  (MemFS.reporting (MemFS.summary_report false 1 0))
                  (MemFS.self0 (MemFS.schema_of ["age"]))
                  (MemFS.start MemFS.ages (MemFS.table false)) _)).
  exists MemFS.ages, (MemFS.table false),
    (MemFS.evaluation_of (MemFS.summary_report false 1 0)),
    (MemFS.summary_report false 1 0), false, (VInt 1), (VInt 0), 1.
  by vm_compute.
Defined.

Lemma valid_status_means_equal_column_counts_witness :
  let env := MemFS.reporting (MemFS.summary_report false 1 0) in
  let self := MemFS.self0 (MemFS.schema_of ["age"]) in
  let s := MemFS.start MemFS.ages MemFS.ages in
  let run := initiate_data_validation env self s in
  (run = (Ok (artifact_of self true), run.2) ∧
   validation_status (artifact_of self true) = true) ∧
  ∃ train_df test_df s2,
    pd_read_csv env "train.csv" (world s) = Ok train_df ∧
    pd_read_csv env "test.csv" (world s) = Ok test_df ∧
    length (columns train_df) = length (columns test_df) ∧
    expected_column_count self = Ok (length (columns train_df)) ∧
    detect_dataset_drift env self train_df test_df
      (add_events s (start_log ++ [EvReadCsv "train.csv"; EvReadCsv "test.csv"]))
      = (Ok false, s2).
Proof.
  assert (H : initiate_data_validation
                (MemFS.reporting (MemFS.summary_report false 1 0))
                (MemFS.self0 (MemFS.schema_of ["age"]))
                (MemFS.start MemFS.ages MemFS.ages) =
              (Ok (artifact_of (MemFS.self0 (MemFS.schema_of ["age"])) true),
               (initiate_data_validation
                  (MemFS.reporting (MemFS.summary_report false 1 0))
                  (MemFS.self0 (MemFS.schema_of ["age"]))
                  (MemFS.start MemFS.ages MemFS.ages)).2))
    by (vm_compute; reflexivity).
  split; [by split|].
  exact (valid_status_means_equal_column_counts _ _ _ _ _ H eq_refl).
Defined.

Lemma schema_check_counts_only_witness :
  let self := MemFS.self0 (MemFS.schema_of ["age"]) in
  let s := MemFS.start MemFS.ages MemFS.incomes in
  length (columns MemFS.ages) = length (columns MemFS.incomes) ∧
  columns MemFS.ages ≠ columns MemFS.incomes ∧
  validate_schema_columns self MemFS.ages s =
  validate_schema_columns self MemFS.incomes s.
Proof.
  split; [reflexivity|]. split; [by vm_compute|].
  apply (schema_check_counts_only (MemFS.self0 (MemFS.schema_of ["age"]))
           MemFS.ages MemFS.incomes (MemFS.start MemFS.ages MemFS.incomes)).
  reflexivity.
Defined.

Lemma validate_dataset_schema_columns_pairs_checks_witness :
  let self := MemFS.self0 (MemFS.schema_of ["age"]) in
  let s := MemFS.start (MemFS.table false) MemFS.ages in
  let both := validate_dataset_schema_columns self (MemFS.table false) MemFS.ages s in
  both.1 = Ok (false, true) ∧
  verdicts_logged (events_since s both.2) = [false; true].
Proof.
  assert (H : (validate_dataset_schema_columns
                 (MemFS.self0 (MemFS.schema_of ["age"]))
                 (MemFS.table false) MemFS.ages
                 (MemFS.start (MemFS.table false) MemFS.ages)).1 = Ok (false, true))
    by reflexivity.
  split; [exact H|].
  exact (proj2 (proj2 (validate_dataset_schema_columns_pairs_checks
                         (MemFS.self0 (MemFS.schema_of ["age"]))
                         (MemFS.table false) MemFS.ages
                         (MemFS.start (MemFS.table false) MemFS.ages)))
           false true H).
Defined.

Lemma missing_schema_columns_key_witness :
  let env := MemFS.reporting MemFS.column_report in
  let self := MemFS.self0 (VDict ∅) in
  let s := MemFS.start MemFS.ages MemFS.ages in
  let run := initiate_data_validation env self s in
  run.1 = Err (CustomerException (CustomerException (CustomerException
                 (Raised "KeyError" "columns")))) ∧
  world run.2 = (write_yaml_file env "report.yaml" MemFS.column_report (world s)).2 ∧
  reports_written (events_since s run.2) = [("report.yaml", MemFS.column_report)] ∧
  verdicts_logged (events_since s run.2) = [].
Proof.
  apply (missing_schema_columns_key (MemFS.reporting MemFS.column_report)
           (MemFS.self0 (VDict ∅)) (MemFS.start MemFS.ages MemFS.ages) ∅
           MemFS.ages MemFS.ages (MemFS.evaluation_of MemFS.column_report)
           MemFS.column_report (false, VNone, VNone));
    by vm_compute.
Defined.

Lemma load_failure_makes_no_further_call_witness :
  let env := MemFS.reporting MemFS.column_report in
  let self := MemFS.self0 (MemFS.schema_of ["age"]) in
  MemFS.read "train.csv" (world MemFS.start_empty)
    = Err (Raised "FileNotFoundError" "train.csv") ∧
  events_since MemFS.start_empty
    (initiate_data_validation env self MemFS.start_empty).2 =
    start_log ++ [EvReadCsv "train.csv"].
Proof.
  split; [reflexivity|].
  apply (load_failure_makes_no_further_call
           (MemFS.reporting MemFS.column_report)
           (MemFS.self0 (MemFS.schema_of ["age"])) MemFS.start_empty
           (Raised "FileNotFoundError" "train.csv")).
  left. reflexivity.
Defined.

Lemma engine_failure_wrapped_twice_witness :
  let self := MemFS.self0 (MemFS.schema_of ["age"]) in
  let s := MemFS.start MemFS.ages MemFS.incomes in
  let run := initiate_data_validation MemFS.failing self s in
  report_run MemFS.failing MemFS.incomes MemFS.ages
    = Err (Raised "ValueError" "no columns to compare") ∧
  run.1 = Err (CustomerException (CustomerException
                 (Raised "ValueError" "no columns to compare"))) ∧
  world run.2 = world s ∧
  reports_written (events_since s run.2) = [] ∧
  verdicts_logged (events_since s run.2) = [].
Proof.
  split; [reflexivity|].
  apply (engine_failure_wrapped_twice MemFS.failing
           (MemFS.self0 (MemFS.schema_of ["age"]))
           (MemFS.start MemFS.ages MemFS.incomes) MemFS.ages MemFS.incomes
           (Raised "ValueError" "no columns to compare"));
    [reflexivity | reflexivity | left; reflexivity].
Defined.

Lemma write_failure_aborts_run_witness :
  let env := MemFS.reporting (MemFS.summary_report true 1 1) in
  let self := MemFS.self_unwritable (MemFS.schema_of ["age"]) in
  let s := MemFS.start MemFS.ages MemFS.ages in
  let run := initiate_data_validation env self s in
  (write_yaml_file env "" (MemFS.summary_report true 1 1) (world s)).1
    = Err (Raised "FileNotFoundError" "") ∧
  run.1 = Err (CustomerException (CustomerException
                 (Raised "FileNotFoundError" ""))) ∧
  world run.2 = (write_yaml_file env "" (MemFS.summary_report true 1 1) (world s)).2 ∧
  events_since s run.2 =
    start_log ++
    [EvReadCsv "train.csv"; EvReadCsv "test.csv";
     EvReportRun MemFS.ages MemFS.ages;
     EvPrint (MemFS.evaluation_of (MemFS.summary_report true 1 1));
     EvDumpDict (MemFS.evaluation_of (MemFS.summary_report true 1 1));
     EvWriteYaml "" (MemFS.summary_report true 1 1)].
Proof.
  split; [reflexivity|].
  apply (write_failure_aborts_run
           (MemFS.reporting (MemFS.summary_report true 1 1))
           (MemFS.self_unwritable (MemFS.schema_of ["age"]))
           (MemFS.start MemFS.ages MemFS.ages) MemFS.ages MemFS.ages
           (MemFS.evaluation_of (MemFS.summary_report true 1 1))
           (MemFS.summary_report true 1 1) (Raised "FileNotFoundError" ""));
    reflexivity.
Defined.

Lemma detect_dataset_drift_first_summary_decides_witness :
  let metrics :=
    [MemFS.column_metric; VDict (MemFS.metric_entry (MemFS.count_only_result 3));
     VInt 5] in
  let report_dict := MemFS.report_of metrics in
  let env := MemFS.reporting report_dict in
  let self := MemFS.self0 (MemFS.schema_of ["age"]) in
  let s := MemFS.start MemFS.ages MemFS.ages in
  let run := detect_dataset_drift env self MemFS.ages MemFS.ages s in
  run.1 = Ok false ∧
  events_since s run.2 =
    [EvReportRun MemFS.ages MemFS.ages; EvPrint (MemFS.evaluation_of report_dict);
     EvDumpDict (MemFS.evaluation_of report_dict);
     EvWriteYaml "report.yaml" report_dict].
Proof.
  cbv zeta.
  pose proof (detect_dataset_drift_first_summary_decides
    (MemFS.reporting (MemFS.report_of
       [MemFS.column_metric;
        VDict (MemFS.metric_entry (MemFS.count_only_result 3)); VInt 5]))
    (MemFS.self0 (MemFS.schema_of ["age"])) MemFS.ages MemFS.ages
    (MemFS.start MemFS.ages MemFS.ages)
    (MemFS.evaluation_of (MemFS.report_of
       [MemFS.column_metric;
        VDict (MemFS.metric_entry (MemFS.count_only_result 3)); VInt 5]))
    {[ "metrics" := VList
       [MemFS.column_metric;
        VDict (MemFS.metric_entry (MemFS.count_only_result 3)); VInt 5] ]}
    [MemFS.column_metric] (MemFS.metric_entry (MemFS.count_only_result 3))
    (MemFS.count_only_result 3) [VInt 5]) as H.
  cbv zeta in H.
  destruct H as (_ & Hfalse & Hevents);
    [reflexivity | reflexivity | reflexivity | reflexivity | reflexivity
    | reflexivity | right; eexists; reflexivity |].
  split; [by apply Hfalse|]. rewrite Hevents. reflexivity.
Defined.

Lemma malformed_report_raises_after_write_witness :
  let report_dict := MemFS.report_of [MemFS.column_metric; VStr "oops"] in
  let env := MemFS.reporting report_dict in
  let self := MemFS.self0 (MemFS.schema_of ["age"]) in
  let s := MemFS.start MemFS.ages MemFS.ages in
  let run := detect_dataset_drift env self MemFS.ages MemFS.ages s in
  (∃ msg, run.1 = Err (CustomerException (Raised "AttributeError" msg))) ∧
  world run.2 !! "report.yaml" = Some (MemFS.FYaml report_dict) ∧
  reports_written (events_since s run.2) = [("report.yaml", report_dict)].
Proof.
  cbv zeta.
  pose proof (malformed_report_raises_after_write
    (MemFS.reporting (MemFS.report_of [MemFS.column_metric; VStr "oops"]))
    (MemFS.self0 (MemFS.schema_of ["age"])) MemFS.ages MemFS.ages
    (MemFS.start MemFS.ages MemFS.ages)
    (MemFS.evaluation_of (MemFS.report_of [MemFS.column_metric; VStr "oops"]))
    (MemFS.report_of [MemFS.column_metric; VStr "oops"])) as H.
  cbv zeta in H.
  destruct H as (_ & _ & Hentry & Hwritten);
    [reflexivity | reflexivity | reflexivity |].
  split.
  - apply (Hentry {[ "metrics" := VList [MemFS.column_metric; VStr "oops"] ]}
             [MemFS.column_metric] (VStr "oops") []); [reflexivity..|done].
  - destruct Hwritten as [Hworld Hreports]; [reflexivity|].
    split; [|exact Hreports]. rewrite Hworld. reflexivity.
Defined.
